(** * agent-py: the device wrapper of [agent/device.py]

    A shallow embedding of the two classes of [agent/device.py],
    [TimePeriod] and [Device], together with the properties of the
    specification that concern them.

    Python values are the values a decoded JSON body can hold.  A dict is
    a finite map from string keys; none of the statements below depends on
    the insertion order of a dict.  Values are trees: a snapshot decoded
    from a response shares no sub-object with another one. *)

From Stdlib Require Import ZArith Floats Ascii String.
From stdpp Require Import base option list gmap strings pretty.

Local Open Scope string_scope.
Local Open Scope Z_scope.

(** ** Python values, exceptions and subscripting *)

#[warnings="-register-all"]
Inductive value : Type :=
  | VNone
  | VBool (b : bool)
  | VInt (z : Z)
  | VFloat (f : float)
  | VStr (s : string)
  | VList (l : list value)
  | VDict (m : gmap string value).

(** The exceptions that reach a caller of this module.  [KeyError] carries
    the missing key and [ValueError] its message; [OtherError] stands for
    any exception class of the transport (connection, timeout, decoding). *)
Inductive exn : Type :=
  | KeyError (key : string)
  | TypeError
  | ValueError (msg : string)
  | OverflowError
  | OtherError (cls msg : string).

Inductive result (A : Type) : Type :=
  | Ok (a : A)
  | Raise (e : exn).
Arguments Ok {A} a.
Arguments Raise {A} e.

Definition rbind {A B} (r : result A) (k : A -> result B) : result B :=
  match r with
  | Ok a => k a
  | Raise e => Raise e
  end.

(** [v[key]] for a string key: only a dict can be subscripted by a string;
    a list or a string wants an integer index and the other values are not
    subscriptable at all. *)
Definition getitem (v : value) (key : string) : result value :=
  match v with
  | VDict m =>
      match m !! key with
      | Some x => Ok x
      | None => Raise (KeyError key)
      end
  | _ => Raise TypeError
  end.

(** [v[key] = x] for a string key. *)
Definition setitem (v : value) (key : string) (x : value) : result value :=
  match v with
  | VDict m => Ok (VDict (<[key := x]> m))
  | _ => Raise TypeError
  end.

(** Whether a float holds exactly the integer [n]; Python compares an
    int with a float by value, without rounding the int. *)
Definition float_eq_int (f : float) (n : Z) : bool :=
  match Prim2SF f with
  | S754_zero _ => n =? 0
  | S754_finite s m e =>
      let sm := if s then Z.neg m else Z.pos m in
      if 0 <=? e then sm * 2 ^ e =? n else sm =? n * 2 ^ (- e)
  | _ => false
  end.

(** [v != n] for an int literal [n]. *)
Definition ne_int (v : value) (n : Z) : bool :=
  match v with
  | VInt z => negb (z =? n)
  | VBool b => negb ((if b then 1 else 0) =? n)
  | VFloat f => negb (float_eq_int f n)
  | _ => true
  end.

(** [str(n)] for an int, as [str.format] renders it. *)
Definition str_of_int (n : Z) : string := pretty n.

(** ** TimePeriod *)

Module TimePeriod.

Inductive t : Type := ALL | HOUR | DAY | WEEK | MONTH.

#[global] Instance t_eq_dec : EqDecision t.
Proof. solve_decision. Defined.

(** The tuple each member is defined with. *)
Definition value (tp : t) : string * string :=
  match tp with
  | ALL => ("all", "Events")
  | HOUR => ("hour", "Events Last Hour")
  | DAY => ("day", "Events Last Day")
  | WEEK => ("week", "Events Last Week")
  | MONTH => ("month", "Events Last Month")
  end.

Definition period (tp : t) : string := fst (value tp).
Definition title (tp : t) : string := snd (value tp).

(** Iterating over the class yields the members in definition order. *)
Definition members : list t := [ALL; HOUR; DAY; WEEK; MONTH].

Fixpoint scan (ms : list t) (v : string) : result t :=
  match ms with
  | [] => Raise (ValueError (v +:+ " is not a valid TimePeriod"))
  | time_period :: rest =>
      if String.eqb (period time_period) v then Ok time_period
      else scan rest v
  end.

(** [get_time_period] on a string argument. *)
Definition get_time_period (v : string) : result t := scan members v.

Definition tokens : list string := ["all"; "hour"; "day"; "week"; "month"].

End TimePeriod.

(** ** The client collaborator *)

(** Modelled from the spec: the client class is not part of this module;
    section 6 of the specification gives its contract, [get_state(path)]
    performs one request for the relative path and returns the decoded
    body or fails.  A client is its answering behaviour, which may depend
    on the requests made so far, and the log of these requests. *)
Record Client : Type := mkClient {
  respond : list string -> string -> result value;
  requests : list string
}.

Definition answer (c : Client) (path : string) : result value :=
  respond c (requests c) path.

Definition get_state (c : Client) (path : string) : result value * Client :=
  (answer c path, mkClient (respond c) (requests c ++ [path])).

(** ** Device *)

Module Device.

Record t : Type := mkDevice {
  _client : Client;
  _raw_result : value;
  _oid : Z;
  _ot : Z
}.

(** A method runs on [self] and leaves [self] (and the client it refers
    to) in a new state, whether it returns or raises. *)
Definition M (A : Type) : Type := t -> result A * t.

Definition ret {A} (a : A) : M A := fun self => (Ok a, self).
Definition raise {A} (e : exn) : M A := fun self => (Raise e, self).
Definition lift {A} (r : result A) : M A := fun self => (r, self).

Definition bind {A B} (m : M A) (k : A -> M B) : M B := fun self =>
  match m self with
  | (Ok a, self') => k a self'
  | (Raise e, self') => (Raise e, self')
  end.

Notation "x <- m ;; k" := (bind m (fun x => k))
  (at level 100, m at next level, right associativity).
Notation "m ;;; k" := (bind m (fun _ => k))
  (at level 100, right associativity).

Definition get_self : M t := fun self => (Ok self, self).

(** [self._client.get_state(path)] *)
Definition client_get_state (path : string) : M value := fun self =>
  let '(r, c) := get_state (_client self) path in
  (r, mkDevice c (_raw_result self) (_oid self) (_ot self)).

(** [self._raw_result = v] *)
Definition set_raw_result (v : value) : M unit := fun self =>
  (Ok tt, mkDevice (_client self) v (_oid self) (_ot self)).

(** [self._raw_result[k1][k2] = x]: the nested object is looked up, then
    updated in place, so the snapshot sees the new entry under [k1]. *)
Definition store_nested (k1 k2 : string) (x : value) : M unit :=
  self <- get_self ;;
  inner <- lift (getitem (_raw_result self) k1) ;;
  inner' <- lift (setitem inner k2 x) ;;
  outer' <- lift (setitem (_raw_result self) k1 inner') ;;
  set_raw_result outer'.

Section Init.

(** The builtin [int], applied to the two identity fields. *)
Variable int : value -> result Z.

Definition __init__ (client : Client) (raw_result : value) : result t :=
  rbind (getitem raw_result "id") (fun i =>
  rbind (int i) (fun oid =>
  rbind (getitem raw_result "typeID") (fun ty =>
  rbind (int ty) (fun ot =>
  Ok (mkDevice client raw_result oid ot))))).

End Init.

Definition id (self : t) : Z := _oid self.
Definition typeID (self : t) : Z := _ot self.
Definition client (self : t) : Client := _client self.
Definition raw_result (self : t) : value := _raw_result self.

Definition name (self : t) : result value := getitem (_raw_result self) "name".

(** The path templates, [str.format] applied to the identity fields. *)
Definition command_path (cmd : string) (self : t) : string :=
  "command.cgi?cmd=" +:+ cmd +:+ "&oid=" +:+ str_of_int (_oid self)
    +:+ "&ot=" +:+ str_of_int (_ot self).

Definition update : M value :=
  self <- get_self ;;
  r <- client_get_state (command_path "getObject" self) ;;
  set_raw_result r ;;;
  ret VNone.

Definition mjpeg_image_url (self : t) : string := "video.mjpg?oid=" +:+ str_of_int (_oid self).
Definition mp4_url (self : t) : string := "video.mp4?oid=" +:+ str_of_int (_oid self).
Definition webm_url (self : t) : string := "video.webm?oid=" +:+ str_of_int (_oid self).
Definition still_image_url (self : t) : string := "grab.jpg?oid=" +:+ str_of_int (_oid self).

(** [self._raw_result['data'][key]] *)
Definition data_field (key : string) (self : t) : result value :=
  rbind (getitem (_raw_result self) "data") (fun data => getitem data key).

Definition recording : t -> result value := data_field "recording".
Definition alerted : t -> result value := data_field "alerted".
Definition online : t -> result value := data_field "online".
Definition alerts_active : t -> result value := data_field "alertsActive".
Definition connected : t -> result value := data_field "connected".

(** [and] evaluates its right operand only when the left one is true. *)
Definition has_ptz (self : t) : result bool :=
  if _ot self =? 2
  then rbind (data_field "ptzid" self) (fun p => Ok (ne_int p (-1)))
  else Ok false.

Definition enable : M value :=
  self <- get_self ;;
  client_get_state (command_path "switchOn" self) ;;;
  store_nested "data" "online" (VBool true) ;;;
  ret VNone.

Definition disable : M value :=
  self <- get_self ;;
  client_get_state (command_path "switchOff" self) ;;;
  store_nested "data" "online" (VBool false) ;;;
  ret VNone.

Definition record : M value :=
  self <- get_self ;;
  client_get_state (command_path "record" self) ;;;
  store_nested "data" "recording" (VBool true) ;;;
  ret VNone.

Definition record_stop : M value :=
  self <- get_self ;;
  client_get_state (command_path "recordStop" self) ;;;
  store_nested "data" "recording" (VBool false) ;;;
  ret VNone.

Definition alerts_on : M value :=
  self <- get_self ;;
  client_get_state (command_path "alertsOn" self) ;;;
  store_nested "data" "alertsActive" (VBool true) ;;;
  ret VNone.

Definition alerts_off : M value :=
  self <- get_self ;;
  client_get_state (command_path "alertsOff" self) ;;;
  store_nested "data" "alertsActive" (VBool false) ;;;
  ret VNone.

(** The argument of [get_events]: a member of [TimePeriod], or any other
    value; a member is equal to itself only. *)
Inductive period_arg : Type :=
  | Member (tp : TimePeriod.t)
  | NotMember (v : value).

Definition eq_member (a : period_arg) (tp : TimePeriod.t) : bool :=
  match a with
  | Member tp' => bool_decide (tp' = tp)
  | NotMember _ => false
  end.

Definition events_path (self : t) (date_filter : Z) : string :=
  "eventcounts.json?oid=" +:+ str_of_int (_oid self) +:+ "&ot=" +:+ str_of_int (_ot self)
    +:+ "&secs=" +:+ str_of_int date_filter.

Definition date_filter (time_period : period_arg) : Z :=
  let date_filter := 3600 * 24 * 365 * 20 in
  let date_filter := if eq_member time_period TimePeriod.HOUR then 3600 else date_filter in
  let date_filter := if eq_member time_period TimePeriod.DAY then 3600 * 24 else date_filter in
  let date_filter := if eq_member time_period TimePeriod.WEEK then 3600 * 24 * 7 else date_filter in
  let date_filter := if eq_member time_period TimePeriod.MONTH then 3600 * 24 * 30 else date_filter in
  date_filter.

Definition get_events (time_period : period_arg) : M value :=
  self <- get_self ;;
  count_response <- client_get_state (events_path self (date_filter time_period)) ;;
  lift (getitem count_response "count").

End Device.

(** ** Methods as data

    The callers of a device pick among its methods; [run] dispatches to
    the definitions above.  [command_name], [cached_field] and
    [cached_value] are the three columns of the command table of the
    specification, against which the six command methods are checked. *)

Inductive command : Type :=
  | Enable | Disable | StartRecording | StopRecording | AlertsOn | AlertsOff.

Inductive method : Type :=
  | Command (c : command)
  | Update
  | GetEvents (time_period : Device.period_arg).

Definition run_command (c : command) : Device.M value :=
  match c with
  | Enable => Device.enable
  | Disable => Device.disable
  | StartRecording => Device.record
  | StopRecording => Device.record_stop
  | AlertsOn => Device.alerts_on
  | AlertsOff => Device.alerts_off
  end.

Definition run (m : method) : Device.M value :=
  match m with
  | Command c => run_command c
  | Update => Device.update
  | GetEvents time_period => Device.get_events time_period
  end.

(** A caller that goes on after a method raised still holds the device in
    the state the method left it in. *)
Fixpoint run_all (ms : list method) (self : Device.t) : Device.t :=
  match ms with
  | [] => self
  | m :: ms' => run_all ms' (snd (run m self))
  end.

Definition command_name (c : command) : string :=
  match c with
  | Enable => "switchOn"
  | Disable => "switchOff"
  | StartRecording => "record"
  | StopRecording => "recordStop"
  | AlertsOn => "alertsOn"
  | AlertsOff => "alertsOff"
  end.

Definition cached_field (c : command) : string :=
  match c with
  | Enable | Disable => "online"
  | StartRecording | StopRecording => "recording"
  | AlertsOn | AlertsOff => "alertsActive"
  end.

Definition cached_value (c : command) : bool :=
  match c with
  | Enable | StartRecording | AlertsOn => true
  | Disable | StopRecording | AlertsOff => false
  end.

(** The path of the one request a method makes. *)
Definition request_path (m : method) (self : Device.t) : string :=
  match m with
  | Command c => Device.command_path (command_name c) self
  | Update => Device.command_path "getObject" self
  | GetEvents time_period => Device.events_path self (Device.date_filter time_period)
  end.

(** ** An instance of the builtin [int]

    [Device.__init__] is parametric in the conversion.  The instance
    below is the builtin on the scalars of a decoded body: an int is
    itself, a bool is 0 or 1, a float is truncated towards zero, and a
    string is read in base 10: blanks around it are dropped, a sign may
    come first, and single underscores may stand between digits.  A
    string is taken to be ASCII (the builtin also reads the decimal
    digits of other scripts), and the interpreter's limit on the number
    of digits is left out; the statements about construction hold for any
    conversion. *)

Definition digit_of (a : Ascii.ascii) : option Z :=
  let n := Z.of_N (Ascii.N_of_ascii a) in
  if (48 <=? n) && (n <=? 57) then Some (n - 48) else None.

(** Space, and the controls from tab to carriage return. *)
Definition is_space (a : Ascii.ascii) : bool :=
  let n := Z.of_N (Ascii.N_of_ascii a) in
  ((9 <=? n) && (n <=? 13)) || (n =? 32).

Fixpoint lstrip (s : string) : string :=
  match s with
  | EmptyString => EmptyString
  | String a s' => if is_space a then lstrip s' else s
  end.

Definition strip (s : string) : string :=
  String.rev (lstrip (String.rev (lstrip s))).

(** The digits after the sign; [after_digit] says that the character just
    read was a digit, which an underscore and the end both need. *)
Fixpoint digits (s : string) (acc : Z) (after_digit : bool) : option Z :=
  match s with
  | EmptyString => if after_digit then Some acc else None
  | String a s' =>
      match digit_of a with
      | Some d => digits s' (10 * acc + d) true
      | None =>
          if Ascii.eqb a "_" && after_digit then digits s' acc false else None
      end
  end.

Definition parse_int (s : string) : option Z :=
  match strip s with
  | String "-"%char s' => Z.opp <$> digits s' 0 false
  | String "+"%char s' => digits s' 0 false
  | s' => digits s' 0 false
  end.

(** [repr] of a string, as the error message of [int] shows it. *)
Definition hex_digit (d : Z) : Ascii.ascii :=
  Ascii.ascii_of_N (Z.to_N (if d <? 10 then 48 + d else 87 + d)).

Fixpoint contains (a : Ascii.ascii) (s : string) : bool :=
  match s with
  | EmptyString => false
  | String b s' => Ascii.eqb a b || contains a s'
  end.

Definition escape (quote a : Ascii.ascii) : string :=
  let n := Z.of_N (Ascii.N_of_ascii a) in
  if Ascii.eqb a quote || (n =? 92) then String (Ascii.ascii_of_N 92) (String a "")
  else if n =? 9 then String (Ascii.ascii_of_N 92) "t"
  else if n =? 10 then String (Ascii.ascii_of_N 92) "n"
  else if n =? 13 then String (Ascii.ascii_of_N 92) "r"
  else if (n <? 32) || (n =? 127)
       then String (Ascii.ascii_of_N 92)
              (String "x" (String (hex_digit (n / 16)) (String (hex_digit (n mod 16)) "")))
  else String a "".

Fixpoint escape_all (quote : Ascii.ascii) (s : string) : string :=
  match s with
  | EmptyString => EmptyString
  | String a s' => escape quote a +:+ escape_all quote s'
  end.

Definition repr (s : string) : string :=
  let single := Ascii.ascii_of_N 39 in
  let double := Ascii.ascii_of_N 34 in
  let quote := if contains single s && negb (contains double s) then double else single in
  String quote (escape_all quote s +:+ String quote "").

Definition int_of_float (f : float) : result Z :=
  match Prim2SF f with
  | S754_zero _ => Ok 0
  | S754_infinity _ => Raise OverflowError
  | S754_nan => Raise (ValueError "cannot convert float NaN to integer")
  | S754_finite s m e =>
      let q := if 0 <=? e then Z.pos m * 2 ^ e else Z.pos m / 2 ^ (- e) in
      Ok (if s then - q else q)
  end.

Definition int_builtin (v : value) : result Z :=
  match v with
  | VInt z => Ok z
  | VBool b => Ok (if b then 1 else 0)
  | VFloat f => int_of_float f
  | VStr s =>
      match parse_int s with
      | Some z => Ok z
      | None =>
          Raise (ValueError ("invalid literal for int() with base 10: "
                               +:+ String.substring 0 200 (repr s)))
      end
  | _ => Raise TypeError
  end.

(** ** Sample clients and snapshots *)

(** A client that answers every request with the same body. *)
Definition constant_client (body : value) : Client :=
  mkClient (fun _ _ => Ok body) [].

(** A client whose every request fails with a connection error. *)
Definition failing_client : Client :=
  mkClient (fun _ _ => Raise (OtherError "ConnectionError" "connection refused")) [].

(** The snapshot of the specification's construction example. *)
Definition cam1_data : gmap string value :=
  list_to_map [("online", VBool true); ("ptzid", VInt 3)].

Definition cam1_map : gmap string value :=
  list_to_map [("id", VInt 5); ("typeID", VInt 2); ("name", VStr "Cam1");
               ("data", VDict cam1_data)].

Definition cam1 : value := VDict cam1_map.

(** A snapshot without the nested state block. *)
Definition bare_map : gmap string value :=
  list_to_map [("id", VInt 1); ("typeID", VInt 2)].

Definition bare : value := VDict bare_map.

(** Further sample devices and clients. *)

Definition bare_device : Device.t :=
  Device.mkDevice (constant_client VNone) bare 1 2.

Definition cam1_device : Device.t :=
  Device.mkDevice (constant_client VNone) cam1 5 2.

Definition cam1_offline : Device.t := Device.mkDevice failing_client cam1 5 2.

Definition bare_offline : Device.t := Device.mkDevice failing_client bare 1 2.

(** A client that answers every request with a count of seven. *)
Definition counting_client : Client :=
  constant_client (VDict (list_to_map [("count", VInt 7)])).

(** A camera whose ptzid says that it has no PTZ unit. *)
Definition no_ptz_map : gmap string value :=
  list_to_map [("id", VInt 5); ("typeID", VInt 2);
               ("data", VDict (list_to_map [("ptzid", VInt (-1))]))].

(** A state block in which the server sent a null [alerted] and left out
    the other three flags. *)
Definition sparse_data : gmap string value :=
  list_to_map [("alerted", VNone); ("connected", VBool true)].

Definition sparse_map : gmap string value :=
  list_to_map [("id", VInt 1); ("typeID", VInt 2); ("data", VDict sparse_data)].

Definition sparse_device : Device.t :=
  Device.mkDevice (constant_client VNone) (VDict sparse_map) 1 2.

(** A client whose every body is the snapshot of another object, which
    has no name. *)
Definition other_map : gmap string value :=
  list_to_map [("id", VInt 9); ("typeID", VInt 1); ("data", VDict ∅)].

Definition other_client : Client := constant_client (VDict other_map).

Definition cam1_refreshing : Device.t := Device.mkDevice other_client cam1 5 2.

(** ** Vocabulary of the statements *)

(** The device once the request for [path] has been logged. *)
Definition after_request (self : Device.t) (path : string) : Device.t :=
  Device.mkDevice (snd (get_state (Device._client self) path))
    (Device._raw_result self) (Device._oid self) (Device._ot self).

(** The client request does not fail. *)
Definition request_returns (self : Device.t) (path : string) : Prop :=
  exists body, answer (Device._client self) path = Ok body.

(** The snapshot [raw] after [raw['data'][key] = x]. *)
Definition nested_store (raw : value) (key : string) (x : value) : result value :=
  rbind (getitem raw "data") (fun inner =>
  rbind (setitem inner key x) (fun inner' =>
  setitem raw "data" inner')).

(** How an accessor reads its key in the nested state block [dm]. *)
Definition reads (accessor : Device.t -> result value) (key : string)
    (self : Device.t) (dm : gmap string value) : Prop :=
  match dm !! key with
  | Some v => accessor self = Ok v
  | None => accessor self = Raise (KeyError key)
  end.

(** The device holds a dict under 'data'. *)
Definition has_state_block (self : Device.t) : Prop :=
  exists m dm, Device.raw_result self = VDict m /\ m !! "data" = Some (VDict dm).

(** What a value is when it is not a dict. *)
Definition not_a_dict (v : value) : Prop :=
  match v with
  | VDict _ => False
  | _ => True
  end.

(** A snapshot in which the server sent null for the state block. *)
Definition null_data_map : gmap string value :=
  list_to_map [("id", VInt 4); ("typeID", VInt 2); ("name", VStr "Mic"); ("data", VNone)].

Definition null_data_device : Device.t :=
  Device.mkDevice (constant_client VNone) (VDict null_data_map) 4 2.

(** A client that answers the first request and fails from the second
    request on. *)
Definition one_shot_client : Client :=
  mkClient (fun history _ =>
              match history with
              | [] => Ok VNone
              | _ => Raise (OtherError "Timeout" "timed out")
              end) [].

Definition cam1_one_shot : Device.t := Device.mkDevice one_shot_client cam1 5 2.

(** Whether a method is a command or the query, that is, not [update]. *)
Definition keeps_snapshot_shape (m : method) : bool :=
  match m with
  | Update => false
  | _ => true
  end.

(** Closed decidable side conditions are settled by evaluation. *)
Ltac by_decide := eapply (bool_decide_unpack _); vm_compute; exact I.

(** ** TimePeriod: lookup by token *)

Section TimePeriodFacts.
Import TimePeriod.

Example lookup_week : get_time_period "week" = Ok WEEK.
Proof. reflexivity. Qed.

Example lookup_year :
  get_time_period "year" = Raise (ValueError "year is not a valid TimePeriod").
Proof. reflexivity. Qed.

Lemma period_in_tokens (tp : t) : period tp ∈ tokens.
Proof. destruct tp; unfold tokens; cbn; set_solver. Qed.

Lemma scan_miss (ms : list t) (v : string) :
  (forall tp, tp ∈ ms -> period tp <> v) ->
  scan ms v = Raise (ValueError (v +:+ " is not a valid TimePeriod")).
Proof.
  induction ms as [|tp ms IH]; intros Hne; [reflexivity|].
  cbn [scan].
  destruct (String.eqb_spec (period tp) v) as [Heq|_].
  - exfalso. apply (Hne tp); [left | exact Heq].
  - apply IH. intros tp' Hin. apply Hne. now right.
Qed.

Lemma get_time_period_period (tp : t) : get_time_period (period tp) = Ok tp.
Proof. destruct tp; reflexivity. Qed.

(** C4. Looking up one of the five tokens 'all', 'hour', 'day', 'week',
    'month' returns a member whose period is that token and whose title is
    not the empty string; looking up any other string raises a ValueError
    whose message starts with the rejected token. *)
Theorem get_time_period_spec (v : string) :
  (v ∈ tokens ->
     exists tp, get_time_period v = Ok tp /\ period tp = v /\ title tp <> "") /\
  (v ∉ tokens ->
     get_time_period v = Raise (ValueError (v +:+ " is not a valid TimePeriod"))).
Proof.
  split.
  - unfold tokens. intros Hin.
    repeat (apply elem_of_cons in Hin; destruct Hin as [->|Hin]).
    all: try (eexists; split; [reflexivity | split; [reflexivity | cbv; discriminate]]).
    inversion Hin.
  - intros Hnot. apply scan_miss. intros tp _ Heq.
    apply Hnot. rewrite <- Heq. apply period_in_tokens.
Qed.

Lemma get_time_period_spec_witness :
  (exists tp, get_time_period "month" = Ok tp /\ period tp = "month" /\ title tp <> "") /\
  get_time_period "fortnight"
    = Raise (ValueError ("fortnight" +:+ " is not a valid TimePeriod")).
Proof.
  split.
  - apply (proj1 (get_time_period_spec "month")). by_decide.
  - apply (proj2 (get_time_period_spec "fortnight")). by_decide.
Defined.

End TimePeriodFacts.

(** ** Device: what a method call does *)

Lemma store_nested_eq (key : string) (x : value) (self : Device.t) :
  Device.store_nested "data" key x self =
    match nested_store (Device._raw_result self) key x with
    | Ok raw' =>
        (Ok tt, Device.mkDevice (Device._client self) raw' (Device._oid self) (Device._ot self))
    | Raise e => (Raise e, self)
    end.
Proof.
  unfold Device.store_nested, nested_store, Device.bind, Device.get_self, Device.lift,
    Device.set_raw_result.
  destruct (getitem (Device._raw_result self) "data") as [inner|e]; cbn; [|reflexivity].
  destruct (setitem inner key x) as [inner'|e]; cbn; [|reflexivity].
  destruct (setitem (Device._raw_result self) "data" inner'); reflexivity.
Qed.

Lemma nested_store_cases (raw : value) (key : string) (x : value) :
  (exists m dm,
      raw = VDict m /\ m !! "data" = Some (VDict dm) /\
      nested_store raw key x = Ok (VDict (<["data" := VDict (<[key := x]> dm)]> m))) \/
  (exists e, nested_store raw key x = Raise e).
Proof.
  unfold nested_store.
  destruct raw as [| | | | | |m]; try (right; eexists; reflexivity).
  cbn. destruct (m !! "data") as [inner|] eqn:Hdata; [|right; eexists; reflexivity].
  destruct inner as [| | | | | |dm]; try (right; eexists; reflexivity).
  left. exists m, dm. auto.
Qed.

Lemma nested_store_dict (m dm : gmap string value) (key : string) (x : value) :
  m !! "data" = Some (VDict dm) ->
  nested_store (VDict m) key x = Ok (VDict (<["data" := VDict (<[key := x]> dm)]> m)).
Proof. intros Hdata. unfold nested_store; cbn. now rewrite Hdata. Qed.

Lemma nested_store_no_data (m : gmap string value) (key : string) (x : value) :
  m !! "data" = None -> nested_store (VDict m) key x = Raise (KeyError "data").
Proof. intros Hdata. unfold nested_store; cbn. now rewrite Hdata. Qed.

(** Every command method is one request followed by one nested store. *)
Lemma run_command_eq (c : command) (self : Device.t) :
  run_command c self =
    let self1 := after_request self (request_path (Command c) self) in
    match answer (Device._client self) (request_path (Command c) self) with
    | Raise e => (Raise e, self1)
    | Ok _ =>
        match nested_store (Device._raw_result self) (cached_field c) (VBool (cached_value c)) with
        | Raise e => (Raise e, self1)
        | Ok raw' =>
            (Ok VNone,
             Device.mkDevice (Device._client self1) raw' (Device._oid self) (Device._ot self))
        end
    end.
Proof.
  destruct c; cbn [run_command request_path command_name cached_field cached_value];
    unfold Device.enable, Device.disable, Device.record, Device.record_stop,
      Device.alerts_on, Device.alerts_off;
    unfold Device.bind at 1 2; unfold Device.get_self at 1;
    unfold Device.client_get_state, after_request, get_state; cbn [fst snd];
    (destruct (answer (Device._client self) _); [|reflexivity]);
    unfold Device.bind; rewrite store_nested_eq; cbn;
    match goal with |- context [nested_store ?r ?k ?v] => destruct (nested_store r k v) end;
    reflexivity.
Qed.

Lemma update_eq (self : Device.t) :
  Device.update self =
    let self1 := after_request self (request_path Update self) in
    match answer (Device._client self) (request_path Update self) with
    | Raise e => (Raise e, self1)
    | Ok r =>
        (Ok VNone, Device.mkDevice (Device._client self1) r (Device._oid self) (Device._ot self))
    end.
Proof.
  unfold Device.update, Device.bind, Device.get_self, Device.client_get_state,
    Device.set_raw_result, Device.ret, after_request, get_state; cbn.
  destruct (answer (Device._client self) _); reflexivity.
Qed.

Lemma get_events_eq (time_period : Device.period_arg) (self : Device.t) :
  Device.get_events time_period self =
    let self1 := after_request self (request_path (GetEvents time_period) self) in
    match answer (Device._client self) (request_path (GetEvents time_period) self) with
    | Raise e => (Raise e, self1)
    | Ok count_response => (getitem count_response "count", self1)
    end.
Proof.
  unfold Device.get_events, Device.bind, Device.get_self, Device.client_get_state,
    Device.lift, after_request, get_state; cbn.
  destruct (answer (Device._client self) _); reflexivity.
Qed.

(** Whatever the method and however it ends, the request is logged and
    the identity fields stay. *)
Lemma run_client_and_identity (m : method) (self : Device.t) :
  Device._client (snd (run m self)) = snd (get_state (Device._client self) (request_path m self)) /\
  Device._oid (snd (run m self)) = Device._oid self /\
  Device._ot (snd (run m self)) = Device._ot self.
Proof.
  destruct m as [c| |time_period]; cbn [run].
  - rewrite run_command_eq; cbn zeta.
    destruct (answer _ _); [destruct (nested_store _ _ _)|]; cbn; auto.
  - rewrite update_eq; cbn zeta. destruct (answer _ _); cbn; auto.
  - rewrite get_events_eq; cbn zeta. destruct (answer _ _); cbn; auto.
Qed.

(** ** Device: the optimistic cache update and the flag accessors *)

Example cam1_constructed :
  Device.__init__ int_builtin (constant_client VNone) cam1 = Ok cam1_device.
Proof. reflexivity. Qed.

Example cam1_accessors :
  Device.id cam1_device = 5 /\ Device.typeID cam1_device = 2 /\
  Device.name cam1_device = Ok (VStr "Cam1") /\
  Device.has_ptz cam1_device = Ok true /\
  Device.mp4_url cam1_device = "video.mp4?oid=5".
Proof. vm_compute. auto. Qed.

Example int_builtin_on_strings :
  map (fun s => int_builtin (VStr s))
    [" 7 "; "1_000"; "-12"; "+7"; "007"; "-0"; "1_0_0"]
  = [Ok 7; Ok 1000; Ok (-12); Ok 7; Ok 7; Ok 0; Ok 100].
Proof. reflexivity. Qed.

Example int_builtin_rejects :
  map (fun s => int_builtin (VStr s)) [""; "- 7"; "_7"; "7_"; "1__0"; "0x10"; "a'b"]
  = map (fun r => Raise (ValueError ("invalid literal for int() with base 10: " +:+ r)))
      ["''"; "'- 7'"; "'_7'"; "'7_'"; "'1__0'"; "'0x10'";
       String (Ascii.ascii_of_N 34) ("a'b" +:+ String (Ascii.ascii_of_N 34) "")].
Proof. reflexivity. Qed.

Example int_builtin_on_other_values :
  int_builtin (VBool true) = Ok 1 /\
  int_builtin (VFloat (-2.5)%float) = Ok (-2) /\
  int_builtin VNone = Raise TypeError /\
  int_builtin (VList []) = Raise TypeError.
Proof. repeat split. Qed.

(** Devices whose cached snapshot holds a dict under 'data'. *)
Section WithStateBlock.

Variables (self : Device.t) (m dm : gmap string value).
Hypothesis Hraw : Device.raw_result self = VDict m.
Hypothesis Hdata : m !! "data" = Some (VDict dm).

Lemma data_field_dict (key : string) :
  Device.data_field key self =
    match dm !! key with
    | Some v => Ok v
    | None => Raise (KeyError key)
    end.
Proof.
  unfold Device.data_field. unfold Device.raw_result in Hraw. rewrite Hraw; cbn.
  now rewrite Hdata.
Qed.

(** A command whose request returns hands back [None] and leaves its flag
    readable with the commanded value. *)
Lemma command_stores (c : command) :
  request_returns self (request_path (Command c) self) ->
  fst (run_command c self) = Ok VNone /\
  Device._raw_result (snd (run_command c self))
    = VDict (<["data" := VDict (<[cached_field c := VBool (cached_value c)]> dm)]> m) /\
  Device.data_field (cached_field c) (snd (run_command c self)) = Ok (VBool (cached_value c)).
Proof.
  intros [body Hbody]. unfold Device.raw_result in Hraw.
  rewrite run_command_eq; cbn zeta. rewrite Hbody, Hraw.
  rewrite (nested_store_dict _ _ _ _ Hdata). cbn [fst snd Device._raw_result].
  repeat split.
  unfold Device.data_field; cbn.
  rewrite lookup_insert_eq; cbn. now rewrite lookup_insert_eq.
Qed.

(** C1, amended. On a device whose cached snapshot holds a dict under
    'data', and when the client request does not fail: after [enable] the
    cached online field is true and after [disable] it is false, whatever
    it was before; after [record] / [record_stop] the cached recording
    field is true / false; after [alerts_on] / [alerts_off] the cached
    alertsActive field is true / false.  Each call returns normally. *)
Theorem commands_set_cached_flag :
  (request_returns self (Device.command_path "switchOn" self) ->
     fst (Device.enable self) = Ok VNone /\
     Device.online (snd (Device.enable self)) = Ok (VBool true)) /\
  (request_returns self (Device.command_path "switchOff" self) ->
     fst (Device.disable self) = Ok VNone /\
     Device.online (snd (Device.disable self)) = Ok (VBool false)) /\
  (request_returns self (Device.command_path "record" self) ->
     fst (Device.record self) = Ok VNone /\
     Device.recording (snd (Device.record self)) = Ok (VBool true)) /\
  (request_returns self (Device.command_path "recordStop" self) ->
     fst (Device.record_stop self) = Ok VNone /\
     Device.recording (snd (Device.record_stop self)) = Ok (VBool false)) /\
  (request_returns self (Device.command_path "alertsOn" self) ->
     fst (Device.alerts_on self) = Ok VNone /\
     Device.alerts_active (snd (Device.alerts_on self)) = Ok (VBool true)) /\
  (request_returns self (Device.command_path "alertsOff" self) ->
     fst (Device.alerts_off self) = Ok VNone /\
     Device.alerts_active (snd (Device.alerts_off self)) = Ok (VBool false)).
Proof.
  repeat apply conj; intros Hreq.
  all: first
    [ destruct (command_stores Enable Hreq) as (Hr & _ & Hf)
    | destruct (command_stores Disable Hreq) as (Hr & _ & Hf)
    | destruct (command_stores StartRecording Hreq) as (Hr & _ & Hf)
    | destruct (command_stores StopRecording Hreq) as (Hr & _ & Hf)
    | destruct (command_stores AlertsOn Hreq) as (Hr & _ & Hf)
    | destruct (command_stores AlertsOff Hreq) as (Hr & _ & Hf) ];
    (split; [exact Hr | exact Hf]).
Qed.

(** C8, amended. On a device whose snapshot holds a dict under 'data',
    each of the accessors [recording], [alerted], [online] and
    [alerts_active] returns the value stored under its key when the key is
    present (None when the server sent null), and raises a KeyError that
    names the key when the state block omits it. *)
Theorem flag_accessors_read_their_key :
  reads Device.recording "recording" self dm /\
  reads Device.alerted "alerted" self dm /\
  reads Device.online "online" self dm /\
  reads Device.alerts_active "alertsActive" self dm.
Proof.
  unfold reads.
  unfold Device.recording, Device.alerted, Device.online, Device.alerts_active.
  rewrite !data_field_dict.
  repeat split; destruct (dm !! _); reflexivity.
Qed.

End WithStateBlock.

Lemma commands_set_cached_flag_witness :
  Device.online cam1_device = Ok (VBool true) /\
  Device.online (snd (Device.enable cam1_device)) = Ok (VBool true) /\
  Device.online (snd (Device.disable cam1_device)) = Ok (VBool false) /\
  Device.recording cam1_device = Raise (KeyError "recording") /\
  Device.recording (snd (Device.record cam1_device)) = Ok (VBool true) /\
  Device.recording (snd (Device.record_stop cam1_device)) = Ok (VBool false) /\
  Device.alerts_active (snd (Device.alerts_on cam1_device)) = Ok (VBool true) /\
  Device.alerts_active (snd (Device.alerts_off cam1_device)) = Ok (VBool false).
Proof.
  destruct (commands_set_cached_flag cam1_device cam1_map cam1_data eq_refl eq_refl)
    as (H1 & H2 & H3 & H4 & H5 & H6).
  assert (Hret : forall path, request_returns cam1_device path) by (intros; now exists VNone).
  split; [reflexivity|].
  split; [apply H1, Hret|]. split; [apply H2, Hret|].
  split; [reflexivity|].
  split; [apply H3, Hret|]. split; [apply H4, Hret|].
  split; [apply H5, Hret | apply H6, Hret].
Defined.

(** C1 as stated fails on a device whose snapshot has no 'data' entry:
    the request returns, [enable] raises KeyError, and the cached online
    field is not true afterwards (reading it raises as well). *)
Lemma enable_without_data_block :
  Device.__init__ int_builtin (constant_client VNone) bare = Ok bare_device /\
  answer (Device.client bare_device) (Device.command_path "switchOn" bare_device) = Ok VNone /\
  fst (Device.enable bare_device) = Raise (KeyError "data") /\
  Device.online (snd (Device.enable bare_device)) = Raise (KeyError "data") /\
  Device.online (snd (Device.enable bare_device)) <> Ok (VBool true).
Proof. vm_compute. repeat split. discriminate. Qed.

Lemma flag_accessors_read_their_key_witness :
  Device.alerted sparse_device = Ok VNone /\
  Device.online sparse_device = Raise (KeyError "online").
Proof.
  destruct (flag_accessors_read_their_key sparse_device sparse_map sparse_data
              eq_refl eq_refl) as (_ & Halerted & Honline & _).
  split; [exact Halerted | exact Honline].
Defined.

(** C8 as stated fails: with 'recording', 'online' and 'alertsActive'
    left out of the state block, the three accessors raise KeyError. *)
Lemma accessors_raise_on_omitted_key :
  Device.__init__ int_builtin (constant_client VNone) (VDict sparse_map) = Ok sparse_device /\
  sparse_data !! "recording" = None /\
  Device.recording sparse_device = Raise (KeyError "recording") /\
  Device.online sparse_device = Raise (KeyError "online") /\
  Device.alerts_active sparse_device = Raise (KeyError "alertsActive").
Proof. vm_compute. repeat split. Qed.

(** ** Device: the event count query *)

Example date_filter_table :
  map Device.date_filter
    [Device.Member TimePeriod.HOUR; Device.Member TimePeriod.DAY;
     Device.Member TimePeriod.WEEK; Device.Member TimePeriod.MONTH;
     Device.Member TimePeriod.ALL; Device.NotMember (VStr "hour")]
  = [3600; 86400; 604800; 2592000; 630720000; 630720000].
Proof. reflexivity. Qed.

Lemma date_filter_cases (time_period : Device.period_arg) :
  Device.date_filter time_period =
    match time_period with
    | Device.Member TimePeriod.HOUR => 3600
    | Device.Member TimePeriod.DAY => 86400
    | Device.Member TimePeriod.WEEK => 604800
    | Device.Member TimePeriod.MONTH => 2592000
    | _ => 630720000
    end.
Proof. destruct time_period as [[]|v]; reflexivity. Qed.

(** C2. For every device and every argument, [get_events] adds exactly
    one request to the client's log, for the path
    eventcounts.json?oid={id}&ot={type}&secs={d}, where d is 3600 for
    HOUR, 86400 for DAY, 604800 for WEEK, 2592000 for MONTH and 630720000
    for ALL and for any argument that is no member of the table; what it
    returns is the subscript ['count'] of the client's response, that is
    the count field when the response is a dict that has one. *)
Theorem get_events_request (self : Device.t) (time_period : Device.period_arg) :
  let d :=
    match time_period with
    | Device.Member TimePeriod.HOUR => 3600
    | Device.Member TimePeriod.DAY => 86400
    | Device.Member TimePeriod.WEEK => 604800
    | Device.Member TimePeriod.MONTH => 2592000
    | Device.Member TimePeriod.ALL => 630720000
    | Device.NotMember _ => 630720000
    end in
  let path :=
    "eventcounts.json?oid=" +:+ str_of_int (Device.id self)
      +:+ "&ot=" +:+ str_of_int (Device.typeID self)
      +:+ "&secs=" +:+ str_of_int d in
  requests (Device.client (snd (Device.get_events time_period self)))
    = (requests (Device.client self) ++ [path])%list /\
  (forall response,
     answer (Device.client self) path = Ok response ->
     fst (Device.get_events time_period self) = getitem response "count") /\
  (forall m count,
     answer (Device.client self) path = Ok (VDict m) ->
     m !! "count" = Some count ->
     fst (Device.get_events time_period self) = Ok count).
Proof.
  cbn zeta. rewrite get_events_eq; cbn zeta.
  cbn [request_path]. unfold Device.events_path, Device.id, Device.typeID, Device.client.
  rewrite date_filter_cases.
  split; [|split].
  - destruct (answer _ _); reflexivity.
  - intros response ->. reflexivity.
  - intros m count -> Hcount. cbn. now rewrite Hcount.
Qed.

Lemma get_events_request_witness :
  requests (Device.client
    (snd (Device.get_events (Device.Member TimePeriod.WEEK)
            (Device.mkDevice counting_client cam1 5 2))))
    = ["eventcounts.json?oid=5&ot=2&secs=604800"] /\
  fst (Device.get_events (Device.Member TimePeriod.WEEK)
         (Device.mkDevice counting_client cam1 5 2)) = Ok (VInt 7).
Proof.
  destruct (get_events_request (Device.mkDevice counting_client cam1 5 2)
              (Device.Member TimePeriod.WEEK)) as (Hlog & _ & Hcount).
  split.
  - exact Hlog.
  - apply (Hcount (list_to_map [("count", VInt 7)])); reflexivity.
Defined.

(** ** Device: accessors over the cached snapshot *)

Lemma ne_int_VInt (z n : Z) : ne_int (VInt z) n = true <-> z <> n.
Proof. cbn. rewrite negb_true_iff. apply Z.eqb_neq. Qed.

Example minus_one_float_is_minus_one : ne_int (VFloat (-1)%float) (-1) = false.
Proof. reflexivity. Qed.

Example true_is_not_minus_one : ne_int (VBool true) (-1) = true.
Proof. reflexivity. Qed.

(** C3. [has_ptz] is true exactly when typeID is 2 and the nested ptzid
    field of the snapshot exists and differs from -1; for an integer ptzid
    this is [typeID = 2 /\ z <> -1].  It is false when typeID is 2 and
    ptzid is -1, and false (without reading the snapshot) for every other
    typeID. *)
Theorem has_ptz_spec (self : Device.t) :
  (Device.has_ptz self = Ok true <->
     Device.typeID self = 2 /\
     exists p, Device.data_field "ptzid" self = Ok p /\ ne_int p (-1) = true) /\
  (forall m dm z,
     Device.raw_result self = VDict m ->
     m !! "data" = Some (VDict dm) ->
     dm !! "ptzid" = Some (VInt z) ->
     (Device.has_ptz self = Ok true <-> Device.typeID self = 2 /\ z <> -1) /\
     (Device.typeID self = 2 -> z = -1 -> Device.has_ptz self = Ok false)) /\
  (Device.typeID self <> 2 -> Device.has_ptz self = Ok false).
Proof.
  assert (Hgen : Device.has_ptz self = Ok true <->
     Device.typeID self = 2 /\
     exists p, Device.data_field "ptzid" self = Ok p /\ ne_int p (-1) = true).
  { unfold Device.has_ptz, Device.typeID.
    destruct (Z.eqb_spec (Device._ot self) 2) as [Heq|Hne].
    - destruct (Device.data_field "ptzid" self) as [p|e]; cbn.
      + split.
        * intros [= Hp]. split; [exact Heq|]. now exists p.
        * intros (_ & p' & [= <-] & Hp). now rewrite Hp.
      + split; [discriminate|]. intros (_ & p' & Hp & _). discriminate.
    - split; [discriminate|]. intros [Heq _]. contradiction. }
  split; [exact Hgen|]. split.
  - intros m dm z Hraw Hdata Hptz.
    pose proof (data_field_dict self m dm Hraw Hdata "ptzid") as Hfield.
    rewrite Hptz in Hfield. split.
    + rewrite Hgen. split.
      * intros (Hty & p & Hp & Hne). rewrite Hfield in Hp. injection Hp as <-.
        split; [exact Hty|]. now apply ne_int_VInt.
      * intros (Hty & Hz). split; [exact Hty|].
        exists (VInt z). split; [exact Hfield|]. now apply ne_int_VInt.
    + intros Hty ->. unfold Device.has_ptz. unfold Device.typeID in Hty.
      rewrite Hty, Hfield. reflexivity.
  - intros Hne. unfold Device.has_ptz, Device.typeID in *.
    destruct (Z.eqb_spec (Device._ot self) 2); [contradiction|reflexivity].
Qed.

Lemma has_ptz_spec_witness :
  Device.has_ptz cam1_device = Ok true /\
  Device.has_ptz (Device.mkDevice failing_client (VDict no_ptz_map) 5 2) = Ok false /\
  Device.has_ptz (Device.mkDevice failing_client bare 1 3) = Ok false.
Proof.
  split; [|split].
  - destruct (has_ptz_spec cam1_device) as (_ & H & _).
    apply (H cam1_map cam1_data 3); try reflexivity. split; [reflexivity | discriminate].
  - destruct (has_ptz_spec (Device.mkDevice failing_client (VDict no_ptz_map) 5 2))
      as (_ & H & _).
    apply (H no_ptz_map (list_to_map [("ptzid", VInt (-1))]) (-1)); reflexivity.
  - destruct (has_ptz_spec (Device.mkDevice failing_client bare 1 3)) as (_ & _ & H).
    apply H. discriminate.
Defined.

(** ** Device: refresh, identity, failures and the frame of a command *)

Lemma requests_after (m : method) (self : Device.t) :
  requests (Device.client (snd (run m self)))
    = (requests (Device.client self) ++ [request_path m self])%list.
Proof.
  unfold Device.client.
  destruct (run_client_and_identity m self) as (-> & _). reflexivity.
Qed.

(** C5. When the getObject request returns, [update] makes the response
    the cached snapshot: a key of the old snapshot that the response lacks
    is absent afterwards, and every key of the response is present with
    the response's value. *)
Theorem update_replaces_snapshot (self : Device.t) (response : value) :
  answer (Device.client self) (Device.command_path "getObject" self) = Ok response ->
  fst (Device.update self) = Ok VNone /\
  Device.raw_result (snd (Device.update self)) = response /\
  (forall old new,
     Device.raw_result self = VDict old -> response = VDict new ->
     exists now,
       Device.raw_result (snd (Device.update self)) = VDict now /\
       (forall key, is_Some (old !! key) -> new !! key = None -> now !! key = None) /\
       (forall key v, new !! key = Some v -> now !! key = Some v)).
Proof.
  intros Hans. rewrite update_eq; cbn zeta.
  cbn [request_path]. unfold Device.client in Hans. rewrite Hans.
  cbn. repeat split.
  intros old new _ ->. exists new. auto.
Qed.

Lemma update_replaces_snapshot_witness :
  Device.name cam1_refreshing = Ok (VStr "Cam1") /\
  Device.raw_result (snd (Device.update cam1_refreshing)) = VDict other_map /\
  Device.name (snd (Device.update cam1_refreshing)) = Raise (KeyError "name").
Proof.
  destruct (update_replaces_snapshot cam1_refreshing (VDict other_map) eq_refl)
    as (_ & Hraw & _).
  split; [reflexivity|]. split; [exact Hraw|].
  unfold Device.name. unfold Device.raw_result in Hraw. rewrite Hraw. reflexivity.
Defined.

Lemma run_all_identity (ms : list method) (self : Device.t) :
  Device._oid (run_all ms self) = Device._oid self /\
  Device._ot (run_all ms self) = Device._ot self.
Proof.
  revert self. induction ms as [|m ms IH]; intros self; cbn [run_all]; [auto|].
  destruct (IH (snd (run m self))) as [-> ->].
  destruct (run_client_and_identity m self) as (_ & -> & ->). auto.
Qed.

(** C6. The [id] and [typeID] of a constructed device are the integers
    [int] made of the 'id' and 'typeID' entries of the snapshot given to
    the constructor, and they stay so through any sequence of method
    calls, [update] included, whatever the client answers. *)
Theorem identity_is_fixed (int : value -> result Z) (client : Client)
    (raw_result : value) (self : Device.t) :
  Device.__init__ int client raw_result = Ok self ->
  rbind (getitem raw_result "id") int = Ok (Device.id self) /\
  rbind (getitem raw_result "typeID") int = Ok (Device.typeID self) /\
  forall ms : list method,
    Device.id (run_all ms self) = Device.id self /\
    Device.typeID (run_all ms self) = Device.typeID self.
Proof.
  unfold Device.__init__. intros Hinit.
  destruct (getitem raw_result "id") as [i|]; cbn in *; [|discriminate].
  destruct (int i) as [oid|]; cbn in *; [|discriminate].
  destruct (getitem raw_result "typeID") as [ty|]; cbn in *; [|discriminate].
  destruct (int ty) as [ot|]; cbn in *; [|discriminate].
  injection Hinit as <-. cbn.
  repeat split; apply run_all_identity.
Qed.

Lemma identity_is_fixed_witness :
  getitem (Device.raw_result (run_all [Command Disable; Update] cam1_refreshing)) "id"
    = Ok (VInt 9) /\
  Device.id (run_all [Command Disable; Update] cam1_refreshing) = 5 /\
  Device.typeID (run_all [Command Disable; Update] cam1_refreshing) = 2.
Proof.
  destruct (identity_is_fixed int_builtin other_client cam1 cam1_refreshing eq_refl)
    as (_ & _ & H).
  split; [reflexivity|]. apply (H [Command Disable; Update]).
Defined.

(** C7. If the client request of a method fails, the method raises the
    client's exception itself and the cached snapshot is the one from
    before the call; this holds for the six commands, for [update] and for
    [get_events]. *)
Theorem request_failure_propagates (self : Device.t) (m : method) (e : exn) :
  answer (Device.client self) (request_path m self) = Raise e ->
  fst (run m self) = Raise e /\
  Device.raw_result (snd (run m self)) = Device.raw_result self.
Proof.
  unfold Device.client. intros Hans.
  destruct m as [c| |time_period]; cbn [run];
    [rewrite run_command_eq | rewrite update_eq | rewrite get_events_eq];
    cbn zeta; rewrite Hans; auto.
Qed.

Lemma request_failure_propagates_witness :
  fst (Device.enable cam1_offline)
    = Raise (OtherError "ConnectionError" "connection refused") /\
  fst (Device.update cam1_offline)
    = Raise (OtherError "ConnectionError" "connection refused") /\
  Device.raw_result (snd (Device.update cam1_offline)) = cam1.
Proof.
  split; [|split].
  - apply (request_failure_propagates cam1_offline (Command Enable)). reflexivity.
  - apply (request_failure_propagates cam1_offline Update). reflexivity.
  - apply (request_failure_propagates cam1_offline Update
             (OtherError "ConnectionError" "connection refused")). reflexivity.
Defined.

(** C9, amended. A command method adds exactly one request to the
    client's log and modifies at most one field of the nested state
    block, its own flag (online, recording or alertsActive), which holds
    the commanded value whenever the call returns; every top-level key of
    the snapshot other than 'data', every other key of the state block,
    and [id] and [typeID] are unchanged by the call. *)
Theorem command_frame (self : Device.t) (c : command) :
  requests (Device.client (snd (run_command c self)))
    = (requests (Device.client self) ++ [Device.command_path (command_name c) self])%list /\
  Device.id (snd (run_command c self)) = Device.id self /\
  Device.typeID (snd (run_command c self)) = Device.typeID self /\
  (forall key, key <> "data" ->
     getitem (Device.raw_result (snd (run_command c self))) key
       = getitem (Device.raw_result self) key) /\
  (forall key, key <> cached_field c ->
     Device.data_field key (snd (run_command c self)) = Device.data_field key self) /\
  (fst (run_command c self) = Ok VNone ->
     Device.data_field (cached_field c) (snd (run_command c self))
       = Ok (VBool (cached_value c))).
Proof.
  split; [apply (requests_after (Command c))|].
  destruct (run_client_and_identity (Command c) self) as (_ & Hoid & Hot).
  split; [exact Hoid|]. split; [exact Hot|].
  cbn [run] in *. rewrite run_command_eq; cbn zeta.
  destruct (answer _ _) as [body|e]; [|cbn; repeat split; auto; discriminate].
  destruct (nested_store_cases (Device._raw_result self) (cached_field c)
              (VBool (cached_value c))) as [(m & dm & Hraw & Hdata & ->)|[e ->]];
    [|cbn; repeat split; auto; discriminate].
  unfold Device.raw_result. cbn [fst snd Device._raw_result].
  split; [|split].
  - intros key Hkey. rewrite Hraw. cbn. now rewrite lookup_insert_ne.
  - intros key Hkey. unfold Device.data_field; cbn. rewrite Hraw; cbn.
    rewrite lookup_insert_eq, Hdata; cbn. now rewrite lookup_insert_ne.
  - intros _. unfold Device.data_field; cbn.
    rewrite lookup_insert_eq; cbn. now rewrite lookup_insert_eq.
Qed.

Lemma command_frame_witness :
  requests (Device.client (snd (Device.record cam1_device)))
    = ["command.cgi?cmd=record&oid=5&ot=2"] /\
  Device.name (snd (Device.record cam1_device)) = Ok (VStr "Cam1") /\
  Device.online (snd (Device.record cam1_device)) = Ok (VBool true) /\
  Device.recording (snd (Device.record cam1_device)) = Ok (VBool true).
Proof.
  destruct (command_frame cam1_device StartRecording) as (Hlog & _ & _ & Htop & Hdata & Hset).
  split; [exact Hlog|]. split; [|split].
  - etransitivity; [apply (Htop "name"); discriminate | reflexivity].
  - etransitivity; [apply (Hdata "online"); discriminate | reflexivity].
  - apply Hset. reflexivity.
Defined.

(** C9 as stated fails on a device whose snapshot has no 'data' entry:
    the request of [record] returns, the call raises KeyError and the
    snapshot is the one from before, so no field at all was modified. *)
Lemma record_without_data_block :
  answer (Device.client bare_device) (Device.command_path "record" bare_device) = Ok VNone /\
  fst (Device.record bare_device) = Raise (KeyError "data") /\
  Device.raw_result (snd (Device.record bare_device)) = Device.raw_result bare_device /\
  Device.recording (snd (Device.record bare_device)) = Raise (KeyError "data").
Proof. vm_compute. repeat split. Qed.

(** C10, amended. On a device whose cached snapshot is a dict without a
    'data' key, a command method first logs its request and, when the
    request does not fail, then raises KeyError for 'data' (a failed
    request raises its own exception instead); the request has been made
    and the snapshot is not changed. *)
Theorem command_without_data_block (self : Device.t) (c : command)
    (m : gmap string value) :
  Device.raw_result self = VDict m ->
  m !! "data" = None ->
  requests (Device.client (snd (run_command c self)))
    = (requests (Device.client self) ++ [Device.command_path (command_name c) self])%list /\
  Device.raw_result (snd (run_command c self)) = Device.raw_result self /\
  (request_returns self (Device.command_path (command_name c) self) ->
     fst (run_command c self) = Raise (KeyError "data")) /\
  (forall e, answer (Device.client self) (Device.command_path (command_name c) self) = Raise e ->
     fst (run_command c self) = Raise e).
Proof.
  unfold Device.raw_result. intros Hraw Hdata.
  split; [apply (requests_after (Command c))|].
  rewrite run_command_eq; cbn zeta. cbn [request_path].
  rewrite Hraw, (nested_store_no_data _ _ _ Hdata).
  unfold request_returns, Device.client.
  destruct (answer _ _) as [body|e]; cbn; repeat split; auto.
  - intros e [=].
  - intros [body [=]].
Qed.

Lemma command_without_data_block_witness :
  fst (Device.alerts_off bare_device) = Raise (KeyError "data") /\
  requests (Device.client (snd (Device.alerts_off bare_device)))
    = ["command.cgi?cmd=alertsOff&oid=1&ot=2"] /\
  Device.raw_result (snd (Device.alerts_off bare_device)) = bare.
Proof.
  destruct (command_without_data_block bare_device AlertsOff bare_map eq_refl eq_refl)
    as (Hlog & Hraw & Hkey & _).
  split; [|split].
  - apply Hkey. now exists VNone.
  - exact Hlog.
  - exact Hraw.
Defined.

(** C10 as stated fails on two kinds of device without a 'data' key.
    When the request itself fails, the command raises the client's
    exception and never reaches the cache update; and when the snapshot is
    no dict at all, as after an [update] that was answered with null, the
    command raises TypeError. *)
Lemma alerts_off_fails_otherwise :
  Device.raw_result bare_offline = VDict bare_map /\
  bare_map !! "data" = None /\
  fst (Device.alerts_off bare_offline)
    = Raise (OtherError "ConnectionError" "connection refused") /\
  Device.raw_result (snd (Device.update bare_device)) = VNone /\
  fst (Device.alerts_off (snd (Device.update bare_device))) = Raise TypeError.
Proof. vm_compute. repeat split. Qed.


(** ** Further properties of TimePeriod *)

Section TimePeriodLookup.
Import TimePeriod.

Lemma scan_hit (ms : list t) (v : string) (tp : t) :
  scan ms v = Ok tp -> period tp = v.
Proof.
  induction ms as [|tp' ms IH]; cbn [scan]; [discriminate|].
  destruct (String.eqb_spec (period tp') v) as [Heq|_]; [|exact IH].
  now intros [= <-].
Qed.

(** X1. [get_time_period] returns a member exactly for that member's own
    token: looking up [v] gives [tp] if and only if [tp.period] is [v]. *)
Theorem get_time_period_iff (v : string) (tp : t) :
  get_time_period v = Ok tp <-> period tp = v.
Proof.
  split.
  - apply scan_hit.
  - intros <-. destruct tp; reflexivity.
Qed.

Lemma period_and_title_identify (tp1 tp2 : t) :
  (period tp1 = period tp2 <-> tp1 = tp2) /\
  (title tp1 = title tp2 <-> tp1 = tp2).
Proof.
  split; (split; [|now intros ->]); destruct tp1, tp2; cbv; congruence.
Qed.

Lemma scan_finds (ms : list t) (tp : t) :
  tp ∈ ms -> scan ms (period tp) = Ok tp.
Proof.
  induction ms as [|tp' ms IH]; intros Hin; [inversion Hin|].
  cbn [scan].
  destruct (String.eqb_spec (period tp') (period tp)) as [Heq|Hne].
  - apply period_and_title_identify in Heq. now subst.
  - apply IH. apply elem_of_cons in Hin as [->|Hin]; [contradiction | exact Hin].
Qed.

(** X2. No two members share a token, so the scan of [get_time_period]
    gives the same result, member or ValueError, in whatever order the
    five members are scanned. *)
Theorem scan_order_is_irrelevant (ms : list t) (v : string) :
  ms ≡ₚ members -> scan ms v = get_time_period v.
Proof.
  intros Hperm.
  destruct (get_time_period v) as [tp|e] eqn:Hlookup.
  - apply scan_hit in Hlookup as <-. apply scan_finds.
    rewrite Hperm. destruct tp; unfold members; set_solver.
  - assert (Hnone : forall tp, period tp <> v).
    { intros tp <-. rewrite get_time_period_period in Hlookup. discriminate. }
    unfold get_time_period in Hlookup.
    rewrite (scan_miss members v) in Hlookup by auto.
    rewrite <- Hlookup. apply scan_miss. auto.
Qed.

Lemma scan_order_is_irrelevant_witness :
  scan [MONTH; WEEK; DAY; HOUR; ALL] "day" = Ok DAY /\
  scan [MONTH; WEEK; DAY; HOUR; ALL] "year"
    = Raise (ValueError "year is not a valid TimePeriod").
Proof.
  split.
  - apply (scan_order_is_irrelevant (reverse members) "day"). apply reverse_Permutation.
  - apply (scan_order_is_irrelevant (reverse members) "year"). apply reverse_Permutation.
Defined.

End TimePeriodLookup.

(** ** Construction *)

Section Construction.

Variable int : value -> result Z.

Lemma getitem_ok (v : value) (key : string) (x : value) :
  getitem v key = Ok x <-> exists m, v = VDict m /\ m !! key = Some x.
Proof.
  split.
  - destruct v as [| | | | | |m]; cbn; try discriminate.
    destruct (m !! key) as [y|] eqn:Hkey; [|discriminate].
    intros [= <-]. now exists m.
  - intros (m & -> & Hkey). cbn. now rewrite Hkey.
Qed.

Lemma getitem_not_a_dict (v : value) (key : string) :
  not_a_dict v -> getitem v key = Raise TypeError.
Proof. destruct v; cbn; [reflexivity..|contradiction]. Qed.

(** X3. The constructor returns a device exactly when the snapshot is a
    dict with an 'id' and a 'typeID' entry that [int] both converts; the
    device then holds the given client and the given snapshot as they are
    and the two converted numbers, and no request has been made. *)
Theorem init_returns_iff (client : Client) (raw_result : value) (self : Device.t) :
  Device.__init__ int client raw_result = Ok self <->
  exists m i ty oid ot,
    raw_result = VDict m /\ m !! "id" = Some i /\ m !! "typeID" = Some ty /\
    int i = Ok oid /\ int ty = Ok ot /\
    self = Device.mkDevice client raw_result oid ot.
Proof.
  unfold Device.__init__. split.
  - destruct (getitem raw_result "id") as [i|] eqn:Hid; cbn; [|discriminate].
    destruct (int i) as [oid|] eqn:Hoid; cbn; [|discriminate].
    destruct (getitem raw_result "typeID") as [ty|] eqn:Hty; cbn; [|discriminate].
    destruct (int ty) as [ot|] eqn:Hot; cbn; [|discriminate].
    intros [= <-].
    apply getitem_ok in Hid as (m & -> & Hid).
    apply getitem_ok in Hty as (m' & [= <-] & Hty).
    exists m, i, ty, oid, ot. repeat split; assumption.
  - intros (m & i & ty & oid & ot & -> & Hid & Hty & Hoid & Hot & ->).
    cbn. rewrite Hid; cbn. rewrite Hoid; cbn. rewrite Hty; cbn. now rewrite Hot.
Qed.

(** X4. How the constructor fails, in the order of its statements: a
    snapshot that is no dict raises TypeError; a dict without 'id' raises
    KeyError for 'id'; a failing conversion of the 'id' entry raises that
    failure, before 'typeID' is looked at; then a missing 'typeID' raises
    KeyError for 'typeID' and a failing conversion of it raises that
    failure. *)
Theorem init_failures (client : Client) (raw_result : value) :
  (not_a_dict raw_result -> Device.__init__ int client raw_result = Raise TypeError) /\
  (forall m, raw_result = VDict m ->
     (m !! "id" = None -> Device.__init__ int client raw_result = Raise (KeyError "id")) /\
     (forall i e, m !! "id" = Some i -> int i = Raise e ->
        Device.__init__ int client raw_result = Raise e) /\
     (forall i oid, m !! "id" = Some i -> int i = Ok oid ->
        (m !! "typeID" = None ->
           Device.__init__ int client raw_result = Raise (KeyError "typeID")) /\
        (forall ty e, m !! "typeID" = Some ty -> int ty = Raise e ->
           Device.__init__ int client raw_result = Raise e))).
Proof.
  unfold Device.__init__. split.
  - intros Hnot. now rewrite (getitem_not_a_dict _ _ Hnot).
  - intros m ->. cbn. split; [|split].
    + now intros ->.
    + intros i e -> Hi. cbn. now rewrite Hi.
    + intros i oid -> Hi. cbn. rewrite Hi; cbn. split.
      * now intros ->.
      * intros ty e -> Hty. cbn. now rewrite Hty.
Qed.

End Construction.

Lemma init_returns_iff_witness :
  Device.__init__ int_builtin (constant_client VNone) cam1 = Ok cam1_device.
Proof.
  apply (init_returns_iff int_builtin).
  exists cam1_map, (VInt 5), (VInt 2), 5, 2. repeat split.
Defined.

Lemma init_failures_witness :
  Device.__init__ int_builtin failing_client (VList []) = Raise TypeError /\
  Device.__init__ int_builtin failing_client (VDict ∅) = Raise (KeyError "id") /\
  Device.__init__ int_builtin failing_client (VDict {["id" := VNone]}) = Raise TypeError /\
  Device.__init__ int_builtin failing_client (VDict {["id" := VStr "7"]})
    = Raise (KeyError "typeID").
Proof.
  split; [|split; [|split]].
  - apply (init_failures int_builtin). exact I.
  - destruct (init_failures int_builtin failing_client (VDict ∅)) as [_ H].
    destruct (H ∅ eq_refl) as (Hid & _). apply Hid. reflexivity.
  - destruct (init_failures int_builtin failing_client (VDict {["id" := VNone]})) as [_ H].
    destruct (H _ eq_refl) as (_ & Hconv & _).
    apply (Hconv VNone TypeError); reflexivity.
  - destruct (init_failures int_builtin failing_client (VDict {["id" := VStr "7"]}))
      as [_ H].
    destruct (H _ eq_refl) as (_ & _ & Hty).
    destruct (Hty (VStr "7") 7 eq_refl eq_refl) as [Hmiss _].
    apply Hmiss. reflexivity.
Defined.

(** ** Requests and URLs over the lifetime of a device *)

Lemma request_path_identity (m : method) (self self' : Device.t) :
  Device._oid self' = Device._oid self ->
  Device._ot self' = Device._ot self ->
  request_path m self' = request_path m self.
Proof.
  intros Hoid Hot.
  destruct m; cbn [request_path]; unfold Device.command_path, Device.events_path;
    now rewrite Hoid, Hot.
Qed.

(** X5. Every method call makes exactly one request, whether it returns
    or raises: after any sequence of calls the client's log is the old log
    followed by one path per call, in call order, and each path is the one
    the method would have requested on the device as constructed. *)
Theorem one_request_per_call (ms : list method) (self : Device.t) :
  requests (Device.client (run_all ms self))
    = (requests (Device.client self) ++ map (fun m => request_path m self) ms)%list /\
  length (requests (Device.client (run_all ms self)))
    = (length (requests (Device.client self)) + length ms)%nat.
Proof.
  assert (Hlog : requests (Device.client (run_all ms self))
    = (requests (Device.client self) ++ map (fun m => request_path m self) ms)%list).
  { revert self. induction ms as [|m ms IH]; intros self; cbn [run_all map].
    - now rewrite app_nil_r.
    - rewrite IH, requests_after, <- app_assoc. cbn [app]. do 2 f_equal.
      apply map_ext. intros m'.
      destruct (run_client_and_identity m self) as (_ & Hoid & Hot).
      now apply request_path_identity. }
  split; [exact Hlog|].
  rewrite Hlog, length_app, length_map. reflexivity.
Qed.

(** X6. The four media URLs of a device never change: after any sequence
    of method calls, [update] with any response included, they are what
    they were. *)
Theorem urls_are_stable (ms : list method) (self : Device.t) :
  Device.mjpeg_image_url (run_all ms self) = Device.mjpeg_image_url self /\
  Device.mp4_url (run_all ms self) = Device.mp4_url self /\
  Device.webm_url (run_all ms self) = Device.webm_url self /\
  Device.still_image_url (run_all ms self) = Device.still_image_url self.
Proof.
  unfold Device.mjpeg_image_url, Device.mp4_url, Device.webm_url, Device.still_image_url.
  destruct (run_all_identity ms self) as [-> _]. auto.
Qed.

Lemma str_of_int_inj (a b : Z) : str_of_int a = str_of_int b -> a = b.
Proof. unfold str_of_int. apply (inj pretty). Qed.

(** X7. Two devices have the same media URL exactly when they have the
    same id: the URL says which device it is, and nothing else of the
    device enters it. *)
Theorem urls_identify_the_id (self other : Device.t) :
  (Device.mjpeg_image_url self = Device.mjpeg_image_url other <->
     Device.id self = Device.id other) /\
  (Device.mp4_url self = Device.mp4_url other <-> Device.id self = Device.id other) /\
  (Device.webm_url self = Device.webm_url other <-> Device.id self = Device.id other) /\
  (Device.still_image_url self = Device.still_image_url other <->
     Device.id self = Device.id other).
Proof.
  unfold Device.mjpeg_image_url, Device.mp4_url, Device.webm_url,
    Device.still_image_url, Device.id.
  repeat apply conj; intros H;
    first [ apply str_of_int_inj; exact (String.app_inj _ _ _ H) | now rewrite H ].
Qed.

(** X8. On one device the six commands and [update] request seven
    different paths: the path alone tells which method was called. *)
Theorem command_paths_differ (self : Device.t) (c1 c2 : command) :
  (request_path (Command c1) self = request_path (Command c2) self -> c1 = c2) /\
  request_path Update self <> request_path (Command c1) self.
Proof.
  split.
  - destruct c1, c2; try reflexivity.
    all: unfold request_path, Device.command_path, command_name.
    all: intros H; cbv [String.app] in H; congruence.
  - destruct c1; unfold request_path, Device.command_path, command_name;
      intros H; cbv [String.app] in H; congruence.
Qed.

(** ** The event count query and the snapshot *)

(** X9. [get_events] neither reads nor writes the cached snapshot: what
    it returns is the same for any snapshot the device may hold, and the
    snapshot after the call is the one from before, however the call
    ends. *)
Theorem get_events_ignores_snapshot (time_period : Device.period_arg)
    (client : Client) (raw raw' : value) (oid ot : Z) :
  fst (Device.get_events time_period (Device.mkDevice client raw oid ot))
    = fst (Device.get_events time_period (Device.mkDevice client raw' oid ot)) /\
  Device.raw_result (snd (Device.get_events time_period (Device.mkDevice client raw oid ot)))
    = raw.
Proof.
  rewrite !get_events_eq; cbn zeta. cbn [request_path Device._client].
  unfold Device.events_path; cbn [Device._oid Device._ot].
  destruct (answer client _); auto.
Qed.

(** X10. When the request of [get_events] returns a body that is no dict,
    the call raises TypeError; when it returns a dict without 'count', the
    call raises KeyError for 'count'.  In both cases the request has been
    made. *)
Theorem get_events_failures (self : Device.t) (time_period : Device.period_arg)
    (response : value) :
  answer (Device.client self) (request_path (GetEvents time_period) self) = Ok response ->
  (not_a_dict response ->
     fst (Device.get_events time_period self) = Raise TypeError) /\
  (forall m, response = VDict m -> m !! "count" = None ->
     fst (Device.get_events time_period self) = Raise (KeyError "count")) /\
  requests (Device.client (snd (Device.get_events time_period self)))
    = (requests (Device.client self) ++ [request_path (GetEvents time_period) self])%list.
Proof.
  unfold Device.client. intros Hans.
  split; [|split].
  - intros Hnot. rewrite get_events_eq; cbn zeta. rewrite Hans. cbn [fst].
    now apply getitem_not_a_dict.
  - intros m -> Hcount. rewrite get_events_eq; cbn zeta. rewrite Hans. cbn.
    now rewrite Hcount.
  - apply (requests_after (GetEvents time_period)).
Qed.

Lemma get_events_failures_witness :
  fst (Device.get_events (Device.Member TimePeriod.DAY) cam1_device) = Raise TypeError /\
  fst (Device.get_events (Device.Member TimePeriod.DAY) cam1_refreshing)
    = Raise (KeyError "count").
Proof.
  split.
  - destruct (get_events_failures cam1_device (Device.Member TimePeriod.DAY) VNone eq_refl)
      as (Hnot & _).
    apply Hnot. exact I.
  - destruct (get_events_failures cam1_refreshing (Device.Member TimePeriod.DAY)
                (VDict other_map) eq_refl) as (_ & Hcount & _).
    apply (Hcount other_map); reflexivity.
Defined.

(** ** How a command ends, and what it leaves alone *)

Lemma command_returns_inv (c : command) (self : Device.t) (v : value) :
  fst (run_command c self) = Ok v ->
  v = VNone /\
  request_returns self (request_path (Command c) self) /\
  exists m dm, Device.raw_result self = VDict m /\ m !! "data" = Some (VDict dm).
Proof.
  rewrite run_command_eq; cbn zeta. unfold request_returns, Device.raw_result.
  destruct (answer _ _) as [body|e]; [|discriminate].
  destruct (nested_store_cases (Device._raw_result self) (cached_field c)
              (VBool (cached_value c))) as [(m & dm & Hraw & Hdata & ->)|[e ->]];
    [|discriminate].
  intros [= <-]. split; [reflexivity|]. split; [now exists body | now exists m, dm].
Qed.

Lemma command_leaves_alone (c : command) (self : Device.t) :
  (forall key, key <> "data" ->
     getitem (Device._raw_result (snd (run_command c self))) key
       = getitem (Device._raw_result self) key) /\
  (forall key, key <> cached_field c ->
     Device.data_field key (snd (run_command c self)) = Device.data_field key self).
Proof.
  rewrite run_command_eq; cbn zeta.
  destruct (answer _ _) as [body|e]; [|cbn; auto].
  destruct (nested_store_cases (Device._raw_result self) (cached_field c)
              (VBool (cached_value c))) as [(m & dm & Hraw & Hdata & ->)|[e ->]];
    [|cbn; auto].
  cbn [fst snd Device._raw_result]. split.
  - intros key Hkey. rewrite Hraw. cbn. now rewrite lookup_insert_ne.
  - intros key Hkey. unfold Device.data_field; cbn. rewrite Hraw; cbn.
    rewrite lookup_insert_eq, Hdata; cbn. now rewrite lookup_insert_ne.
Qed.

(** X11. A command method returns exactly when its request returns and
    the snapshot holds a dict under 'data'; what it returns is None. *)
Theorem command_returns_iff (c : command) (self : Device.t) (v : value) :
  fst (run_command c self) = Ok v <->
  v = VNone /\ request_returns self (request_path (Command c) self) /\ has_state_block self.
Proof.
  split; [apply command_returns_inv|].
  intros (-> & Hreq & m & dm & Hraw & Hdata).
  now destruct (command_stores self m dm Hraw Hdata c Hreq) as (Hret & _).
Qed.

Lemma raising_command_keeps_raw (c : command) (self : Device.t) (e : exn) :
  fst (run_command c self) = Raise e ->
  Device._raw_result (snd (run_command c self)) = Device._raw_result self.
Proof.
  rewrite run_command_eq; cbn zeta.
  destruct (answer _ _) as [body|e']; [|reflexivity].
  destruct (nested_store _ _ _); [discriminate|reflexivity].
Qed.

(** X12. A command method that raises, for whatever reason, leaves the
    cached snapshot as it was: the cache is updated by a call that returns
    and by no other. *)
Theorem failed_command_keeps_snapshot (c : command) (self : Device.t) (e : exn) :
  fst (run_command c self) = Raise e ->
  Device.raw_result (snd (run_command c self)) = Device.raw_result self.
Proof. unfold Device.raw_result. apply raising_command_keeps_raw. Qed.

Lemma failed_command_keeps_snapshot_witness :
  Device.raw_result (snd (Device.enable null_data_device)) = VDict null_data_map.
Proof.
  apply (failed_command_keeps_snapshot Enable null_data_device TypeError). reflexivity.
Defined.

(** X13. When the request returns but the snapshot is no dict, or holds
    under 'data' something that is no dict (null, say), the command raises
    TypeError after the request has been made. *)
Theorem command_on_broken_state_block (c : command) (self : Device.t) :
  request_returns self (request_path (Command c) self) ->
  (not_a_dict (Device.raw_result self) -> fst (run_command c self) = Raise TypeError) /\
  (forall m d, Device.raw_result self = VDict m -> m !! "data" = Some d -> not_a_dict d ->
     fst (run_command c self) = Raise TypeError) /\
  requests (Device.client (snd (run_command c self)))
    = (requests (Device.client self) ++ [request_path (Command c) self])%list.
Proof.
  intros [body Hbody]. unfold Device.raw_result.
  split; [|split].
  - intros Hnot. rewrite run_command_eq; cbn zeta. rewrite Hbody.
    unfold nested_store. now rewrite (getitem_not_a_dict _ _ Hnot).
  - intros m d Hraw Hdata Hnot. rewrite run_command_eq; cbn zeta. rewrite Hbody, Hraw.
    unfold nested_store; cbn. rewrite Hdata; cbn.
    destruct d; cbn; [reflexivity..|contradiction].
  - apply (requests_after (Command c)).
Qed.

Lemma command_on_broken_state_block_witness :
  fst (Device.record null_data_device) = Raise TypeError /\
  requests (Device.client (snd (Device.record null_data_device)))
    = ["command.cgi?cmd=record&oid=4&ot=2"].
Proof.
  assert (Hreq : request_returns null_data_device
                   (request_path (Command StartRecording) null_data_device))
    by now exists VNone.
  destruct (command_on_broken_state_block StartRecording null_data_device Hreq)
    as (_ & Hnull & Hlog).
  split; [|exact Hlog].
  apply (Hnull null_data_map VNone); [reflexivity | reflexivity | exact I].
Defined.

(** X14. No command method changes what [name], [alerted], [connected]
    and [has_ptz] return, whether the call returns or raises. *)
Theorem commands_keep_other_accessors (c : command) (self : Device.t) :
  Device.name (snd (run_command c self)) = Device.name self /\
  Device.alerted (snd (run_command c self)) = Device.alerted self /\
  Device.connected (snd (run_command c self)) = Device.connected self /\
  Device.has_ptz (snd (run_command c self)) = Device.has_ptz self.
Proof.
  destruct (command_leaves_alone c self) as [Htop Hdata].
  destruct (run_client_and_identity (Command c) self) as (_ & _ & Hot).
  cbn [run] in Hot.
  split; [|split; [|split]].
  - apply Htop. discriminate.
  - apply Hdata. destruct c; discriminate.
  - apply Hdata. destruct c; discriminate.
  - unfold Device.has_ptz. rewrite Hot, (Hdata "ptzid"); [reflexivity|].
    destruct c; discriminate.
Qed.

(** X15. Calling a command a second time right after it returned changes
    nothing more in the snapshot, whether the second call returns or
    raises. *)
Theorem command_twice (c : command) (self : Device.t) :
  fst (run_command c self) = Ok VNone ->
  Device.raw_result (snd (run_command c (snd (run_command c self))))
    = Device.raw_result (snd (run_command c self)).
Proof.
  intros Hfirst.
  destruct (command_returns_inv c self VNone Hfirst) as (_ & Hreq & m & dm & Hraw & Hdata).
  destruct (command_stores self m dm Hraw Hdata c Hreq) as (_ & Hraw1 & _).
  destruct (fst (run_command c (snd (run_command c self)))) as [v|e] eqn:Hsecond.
  - destruct (command_returns_inv _ _ _ Hsecond) as (_ & Hreq2 & _).
    assert (Hdata1 : (<["data" := VDict (<[cached_field c := VBool (cached_value c)]> dm)]> m)
                       !! "data"
                     = Some (VDict (<[cached_field c := VBool (cached_value c)]> dm)))
      by apply lookup_insert_eq.
    destruct (command_stores _ _ _ Hraw1 Hdata1 c Hreq2) as (_ & Hraw2 & _).
    unfold Device.raw_result. rewrite Hraw2, Hraw1.
    now rewrite !insert_insert_eq.
  - unfold Device.raw_result. exact (raising_command_keeps_raw _ _ _ Hsecond).
Qed.

Lemma command_twice_witness :
  fst (Device.enable (snd (Device.enable cam1_one_shot)))
    = Raise (OtherError "Timeout" "timed out") /\
  Device.raw_result (snd (Device.enable (snd (Device.enable cam1_one_shot))))
    = Device.raw_result (snd (Device.enable cam1_one_shot)) /\
  Device.raw_result (snd (Device.record_stop (snd (Device.record_stop cam1_device))))
    = Device.raw_result (snd (Device.record_stop cam1_device)).
Proof.
  split; [reflexivity|]. split.
  - apply (command_twice Enable cam1_one_shot). reflexivity.
  - apply (command_twice StopRecording cam1_device). reflexivity.
Defined.

(** X16. Of two commands that both return, the later one decides its own
    flag, and the flag of the earlier one keeps the earlier value unless
    it is the same flag. *)
Theorem later_command_wins (c1 c2 : command) (self : Device.t) :
  fst (run_command c1 self) = Ok VNone ->
  fst (run_command c2 (snd (run_command c1 self))) = Ok VNone ->
  Device.data_field (cached_field c2) (snd (run_command c2 (snd (run_command c1 self))))
    = Ok (VBool (cached_value c2)) /\
  (cached_field c1 <> cached_field c2 ->
     Device.data_field (cached_field c1) (snd (run_command c2 (snd (run_command c1 self))))
       = Ok (VBool (cached_value c1))).
Proof.
  intros H1 H2.
  destruct (command_returns_inv _ _ _ H1) as (_ & Hreq1 & m & dm & Hraw & Hdata).
  destruct (command_stores self m dm Hraw Hdata c1 Hreq1) as (_ & _ & Hflag1).
  destruct (command_returns_inv _ _ _ H2) as (_ & Hreq2 & m1 & dm1 & Hraw1 & Hdata1).
  destruct (command_stores _ m1 dm1 Hraw1 Hdata1 c2 Hreq2) as (_ & _ & Hflag2).
  split; [exact Hflag2|].
  intros Hne. destruct (command_leaves_alone c2 (snd (run_command c1 self))) as [_ Hother].
  now rewrite Hother.
Qed.

Lemma later_command_wins_witness :
  Device.online (snd (Device.disable (snd (Device.enable cam1_device)))) = Ok (VBool false) /\
  Device.online (snd (Device.record (snd (Device.disable cam1_device)))) = Ok (VBool false).
Proof.
  split.
  - apply (later_command_wins Enable Disable cam1_device); reflexivity.
  - apply (later_command_wins Disable StartRecording cam1_device);
      [reflexivity | reflexivity | discriminate].
Defined.

(** X17. Two commands on different flags leave the same snapshot in
    either order, when all the calls return. *)
Theorem commands_on_different_flags_commute (c1 c2 : command) (self : Device.t) :
  cached_field c1 <> cached_field c2 ->
  fst (run_command c1 self) = Ok VNone ->
  fst (run_command c2 (snd (run_command c1 self))) = Ok VNone ->
  fst (run_command c2 self) = Ok VNone ->
  fst (run_command c1 (snd (run_command c2 self))) = Ok VNone ->
  Device.raw_result (snd (run_command c2 (snd (run_command c1 self))))
    = Device.raw_result (snd (run_command c1 (snd (run_command c2 self)))).
Proof.
  intros Hne H1 H12 H2 H21.
  destruct (command_returns_inv _ _ _ H1) as (_ & Hreq1 & m & dm & Hraw & Hdata).
  destruct (command_returns_inv _ _ _ H2) as (_ & Hreq2 & _).
  destruct (command_returns_inv _ _ _ H12) as (_ & Hreq12 & _).
  destruct (command_returns_inv _ _ _ H21) as (_ & Hreq21 & _).
  destruct (command_stores self m dm Hraw Hdata c1 Hreq1) as (_ & Hraw1 & _).
  destruct (command_stores self m dm Hraw Hdata c2 Hreq2) as (_ & Hraw2 & _).
  destruct (command_stores _ _ _ Hraw1 (lookup_insert_eq _ _ _) c2 Hreq12) as (_ & Hraw12 & _).
  destruct (command_stores _ _ _ Hraw2 (lookup_insert_eq _ _ _) c1 Hreq21) as (_ & Hraw21 & _).
  unfold Device.raw_result. rewrite Hraw12, Hraw21, !insert_insert_eq.
  do 3 f_equal. now apply insert_insert_ne.
Qed.

Lemma commands_on_different_flags_commute_witness :
  Device.raw_result (snd (Device.alerts_on (snd (Device.disable cam1_device))))
    = Device.raw_result (snd (Device.disable (snd (Device.alerts_on cam1_device)))).
Proof.
  apply (commands_on_different_flags_commute Disable AlertsOn cam1_device);
    [discriminate | reflexivity..].
Defined.

(** ** Accessors on a snapshot without the state block *)

(** X18. [has_ptz] raises exactly when typeID is 2 and reading the nested
    ptzid raises, and then with that very exception; for any other typeID
    it never raises. *)
Theorem has_ptz_raises_iff (self : Device.t) (e : exn) :
  Device.has_ptz self = Raise e <->
  Device.typeID self = 2 /\ Device.data_field "ptzid" self = Raise e.
Proof.
  unfold Device.has_ptz, Device.typeID.
  destruct (Z.eqb_spec (Device._ot self) 2) as [Heq|Hne].
  - destruct (Device.data_field "ptzid" self) as [p|e']; cbn.
    + split; [discriminate | intros [_ [=]]].
    + split; [now intros [= ->] | now intros [_ [= ->]]].
  - split; [discriminate | intros [Heq _]; contradiction].
Qed.

(** X19. On a device whose snapshot is a dict without a 'data' key, the
    five accessors of the state block raise KeyError for 'data', and so
    does [has_ptz] when typeID is 2, while [name] still reads the
    top-level entry. *)
Theorem accessors_without_state_block (self : Device.t) (m : gmap string value) :
  Device.raw_result self = VDict m ->
  m !! "data" = None ->
  Device.recording self = Raise (KeyError "data") /\
  Device.alerted self = Raise (KeyError "data") /\
  Device.online self = Raise (KeyError "data") /\
  Device.alerts_active self = Raise (KeyError "data") /\
  Device.connected self = Raise (KeyError "data") /\
  (Device.typeID self = 2 -> Device.has_ptz self = Raise (KeyError "data")) /\
  Device.name self = getitem (VDict m) "name".
Proof.
  unfold Device.raw_result. intros Hraw Hdata.
  assert (Hfield : forall key, Device.data_field key self = Raise (KeyError "data")).
  { intros key. unfold Device.data_field. rewrite Hraw; cbn. now rewrite Hdata. }
  unfold Device.recording, Device.alerted, Device.online, Device.alerts_active,
    Device.connected, Device.has_ptz, Device.typeID, Device.name.
  rewrite !Hfield, Hraw. repeat split.
  now intros ->.
Qed.

Lemma accessors_without_state_block_witness :
  Device.connected bare_device = Raise (KeyError "data") /\
  Device.has_ptz bare_device = Raise (KeyError "data") /\
  Device.name bare_device = Raise (KeyError "name").
Proof.
  destruct (accessors_without_state_block bare_device bare_map eq_refl eq_refl)
    as (_ & _ & _ & _ & Hconnected & Hptz & Hname).
  split; [exact Hconnected|]. split; [now apply Hptz | exact Hname].
Defined.

(** ** The shape of the snapshot over the lifetime of a device *)

Lemma run_keeps_state_block (m : method) (self : Device.t) :
  keeps_snapshot_shape m = true ->
  has_state_block self -> has_state_block (snd (run m self)).
Proof.
  unfold has_state_block, Device.raw_result.
  destruct m as [c| |time_period]; cbn [keeps_snapshot_shape run]; [|discriminate|].
  - intros _ (mp & dm & Hraw & Hdata).
    destruct (fst (run_command c self)) as [v|e] eqn:Hres.
    + destruct (command_returns_inv _ _ _ Hres) as (_ & Hreq & _).
      destruct (command_stores self mp dm Hraw Hdata c Hreq) as (_ & -> & _).
      eexists _, _. split; [reflexivity | apply lookup_insert_eq].
    + rewrite (raising_command_keeps_raw _ _ _ Hres). now exists mp, dm.
  - intros _ Hblock. rewrite get_events_eq; cbn zeta.
    destruct (answer _ _); exact Hblock.
Qed.

(** X20. Only [update] can take the state block away: a device whose
    snapshot holds a dict under 'data' still holds one after any sequence
    of commands and event queries, however each of them ends. *)
Theorem state_block_is_kept (ms : list method) (self : Device.t) :
  forallb keeps_snapshot_shape ms = true ->
  has_state_block self ->
  has_state_block (run_all ms self).
Proof.
  revert self. induction ms as [|m ms IH]; intros self; cbn [forallb run_all]; [auto|].
  intros [Hm Hms]%andb_true_iff Hblock.
  apply IH; [exact Hms|]. now apply run_keeps_state_block.
Qed.

Lemma state_block_is_kept_witness :
  has_state_block
    (run_all [Command Enable; GetEvents (Device.Member TimePeriod.ALL); Command AlertsOff]
       cam1_one_shot).
Proof.
  apply state_block_is_kept; [reflexivity|].
  exists cam1_map, cam1_data. split; reflexivity.
Defined.

(** ** From a token to the seconds of the query *)

(** X21. Looking a token up and passing the member on to [get_events]
    makes the device request eventcounts.json with secs=3600 for 'hour',
    86400 for 'day', 604800 for 'week', 2592000 for 'month', and the
    twenty-year span 630720000 for 'all', the only other token the lookup
    accepts. *)
Theorem token_to_seconds (v : string) (tp : TimePeriod.t) (self : Device.t) :
  TimePeriod.get_time_period v = Ok tp ->
  let d :=
    if String.eqb v "hour" then 3600
    else if String.eqb v "day" then 86400
    else if String.eqb v "week" then 604800
    else if String.eqb v "month" then 2592000
    else 630720000 in
  requests (Device.client (snd (Device.get_events (Device.Member tp) self)))
    = (requests (Device.client self) ++
       ["eventcounts.json?oid=" +:+ str_of_int (Device.id self)
          +:+ "&ot=" +:+ str_of_int (Device.typeID self)
          +:+ "&secs=" +:+ str_of_int d])%list.
Proof.
  intros Hlookup. apply scan_hit in Hlookup as <-.
  destruct tp; exact (requests_after (GetEvents (Device.Member _)) self).
Qed.

Lemma token_to_seconds_witness :
  requests (Device.client (snd (Device.get_events (Device.Member TimePeriod.WEEK) cam1_device)))
    = ["eventcounts.json?oid=5&ot=2&secs=604800"].
Proof. apply (token_to_seconds "week" TimePeriod.WEEK cam1_device). reflexivity. Defined.
